(** * DYMS-Lang/setup.py: the packaging descriptor of the DYMS Pygments lexer

    The repository consists of one file, [DYMS-Lang/setup.py], a single call
    [setup(name=..., ..., packages=find_packages(), ...)].  This development
    embeds that call: the keyword arguments as a Python dictionary
    ([gmap string pyval]), the file system and the process environment the
    script runs in as an explicit [Context], and the two names the script
    imports from setuptools ([find_packages], [setup]) as models of the host
    tooling. *)

From Stdlib Require Import Ascii.
From stdpp Require Import gmap strings list fin_maps.

#[local] Set Warnings "-register-all".

(** ** Characters and strings *)

Module Str.

Definition chars (s : string) : list ascii := String.list_ascii_of_string s.
Definition of_chars (cs : list ascii) : string := String.string_of_list_ascii cs.

Definition eqc (a b : ascii) : bool := Ascii.eqb a b.

(** [c in s], for a one-character [c]. *)
Definition contains (c : ascii) (s : string) : bool :=
  existsb (eqc c) (chars s).

(** [fnmatch.fnmatchcase(s, pat)] for patterns made of literals, [?] and
    [*] (the only kinds setuptools' default filters use). *)
Fixpoint glob (pat s : list ascii) {struct pat} : bool :=
  match pat with
  | [] => match s with [] => true | _ :: _ => false end
  | p :: pat' =>
      if eqc p "*" then
        (fix star (s : list ascii) : bool :=
           glob pat' s ||
           match s with [] => false | _ :: s' => star s' end) s
      else
        match s with
        | [] => false
        | c :: s' => (eqc p "?" || eqc p c) && glob pat' s'
        end
  end.

Definition fnmatchcase (s pat : string) : bool := glob (chars pat) (chars s).

Definition code (c : ascii) : N := N_of_ascii c.

Definition between (lo hi : N) (c : ascii) : bool :=
  ((lo <=? code c) && (code c <=? hi))%N.

Definition is_digit : ascii → bool := between 48 57.
Definition is_alpha (c : ascii) : bool := between 65 90 c || between 97 122 c.

(** Python's ASCII white space: tab to carriage return, and the blank. *)
Definition is_space (c : ascii) : bool := between 9 13 c || eqc c " ".

(** The regular-expression class [[\w.]], on ASCII. *)
Definition is_word_or_dot (c : ascii) : bool :=
  is_alpha c || is_digit c || eqc c "_" || eqc c ".".

(** The longest prefix whose characters satisfy [p], and the rest. *)
Fixpoint span (p : ascii → bool) (s : list ascii)
    : list ascii * list ascii :=
  match s with
  | [] => ([], [])
  | c :: s' =>
      if p c then let '(a, b) := span p s' in (c :: a, b) else ([], s)
  end.

Definition lstrip (s : list ascii) : list ascii := snd (span is_space s).
Definition rstrip (s : list ascii) : list ascii := rev (lstrip (rev s)).
Definition strip (s : list ascii) : list ascii := rstrip (lstrip s).

(** [s.split(c, 1)] when [c] occurs in [s]: the text before the first
    [c] and the text after it. *)
Fixpoint split_once (c : ascii) (s : list ascii)
    : option (list ascii * list ascii) :=
  match s with
  | [] => None
  | d :: s' =>
      if eqc c d then Some ([], s')
      else '(a, b) ← split_once c s'; Some (d :: a, b)
  end.

(** [s.split(c)] *)
Fixpoint split (c : ascii) (s : list ascii) : list (list ascii) :=
  match s with
  | [] => [[]]
  | d :: s' =>
      if eqc c d then [] :: split c s'
      else match split c s' with
           | [] => [[d]]
           | w :: ws => (d :: w) :: ws
           end
  end.

(** The prefix [pre] removed from [s], when [s] starts with it. *)
Fixpoint strip_prefix (pre s : list ascii) : option (list ascii) :=
  match pre, s with
  | [], _ => Some s
  | _ :: _, [] => None
  | p :: pre', c :: s' => if eqc p c then strip_prefix pre' s' else None
  end.

(** A non-empty run of decimal digits read as a number. *)
Definition digit_value (c : ascii) : nat := N.to_nat (code c - 48).

Definition read_nat (s : list ascii) : option nat :=
  match s with
  | [] => None
  | _ :: _ =>
      if forallb is_digit s
      then Some (foldl (λ acc c, 10 * acc + digit_value c) 0 s)
      else None
  end.

End Str.

(** ** The file system the script runs in *)

(** A file is kept with the top-level names it binds when imported as a
    Python module (none for a file that is not Python source); a directory
    with its entries, in the order [os.scandir] lists them. *)
Inductive node : Type :=
  | File (name : string) (binds : list string)
  | Dir (name : string) (entries : list node).

Definition node_name (n : node) : string :=
  match n with File f _ => f | Dir d _ => d end.

Definition is_file_named (f : string) (n : node) : bool :=
  match n with File g _ => String.eqb f g | Dir _ _ => false end.

(** [os.path.isfile(os.path.join(path, f))], for the directory whose
    entries are [entries]. *)
Definition isfile (entries : list node) (f : string) : bool :=
  existsb (is_file_named f) entries.

(** ** Python values that occur in the descriptor *)

Inductive pyval : Type :=
  | PStr (s : string)
  | PList (xs : list pyval)
  | PDict (d : gmap string pyval).

Definition as_str (v : pyval) : option string :=
  match v with PStr s => Some s | _ => None end.

(** A list all of whose elements are strings. *)
Definition as_str_list (v : pyval) : option (list string) :=
  match v with PList xs => mapM as_str xs | _ => None end.

Definition as_dict (v : pyval) : option (gmap string pyval) :=
  match v with PDict d => Some d | _ => None end.

(** A dictionary display [{k1: v1, ...}] and the keyword arguments of a call
    [f(k1=v1, ...)]: the items are stored in source order, a later item
    replacing an earlier one with the same key. *)
Definition dict (items : list (string * pyval)) : gmap string pyval :=
  foldl (λ d item, <[item.1 := item.2]> d) ∅ items.

(** ** setuptools: [find_packages] *)

(** Model of [setuptools.find_packages] ([PackageFinder.find] and
    [PackageFinder._find_iter]).  setuptools is the host tooling, not part of
    this repository.  The walk is [os.walk] top-down: every directory first
    yields its own sub-packages, then the kept sub-directories are walked in
    turn. *)
Module PackageFinder.

Definition ALWAYS_EXCLUDE : list string := ["ez_setup"; "*__pycache__"].

(** [any(fnmatchcase(package, pat) for pat in patterns)] *)
Definition matches (patterns : list string) (package : string) : bool :=
  existsb (Str.fnmatchcase package) patterns.

(** [_looks_like_package]: the directory holds a file [__init__.py]. *)
Definition looks_like_package (entries : list node) : bool :=
  isfile entries "__init__.py".

Section Find.
(** The [exclude] and [include] arguments, [ALWAYS_EXCLUDE] already
    prepended to the former. *)
Variables (exclude include : list string).

(** The directory [dir] is a valid package tree: no dot in its name, and
    it looks like a package. *)
Definition valid (n : node) : bool :=
  match n with
  | File _ _ => false
  | Dir dir entries =>
      negb (Str.contains "." dir) && looks_like_package entries
  end.

(** The early pruning test: nothing below [package] is scanned when
    [package*] or [package.*] is itself an exclude pattern. *)
Definition pruned (package : string) : bool :=
  bool_decide (package +:+ "*" ∈ exclude) ||
  bool_decide (package +:+ ".*" ∈ exclude).

(** One iteration of the loop over [all_dirs], for the entry [n] of the
    directory whose dotted path (with a trailing dot, or empty at the
    root) is [prefix]: the package it yields, if any. *)
Definition yields (prefix : string) (n : node) : list string :=
  let package := prefix +:+ node_name n in
  if valid n && matches include package && negb (matches exclude package)
  then [package] else [].

(** Whether the loop puts [n] back into [dirs], so that the walk goes
    on below it. *)
Definition kept (prefix : string) (n : node) : bool :=
  valid n && negb (pruned (prefix +:+ node_name n)).

(** The walk below the entry [n] of the directory at [prefix]. *)
Fixpoint walk (prefix : string) (n : node) {struct n} : list string :=
  match n with
  | File _ _ => []
  | Dir dir entries =>
      if kept prefix n then
        let below := prefix +:+ dir +:+ "." in
        flat_map (yields below) entries ++ flat_map (walk below) entries
      else []
  end.

Definition find_iter (where_ : list node) : list string :=
  flat_map (yields "") where_ ++ flat_map (walk "") where_.
End Find.

(** [find_packages(where='.', exclude=(), include=('*',))] run in the
    directory whose entries are [where_]. *)
Definition find (where_ : list node)
    (exclude : list string) (include : list string) : list string :=
  find_iter (ALWAYS_EXCLUDE ++ exclude) include where_.

End PackageFinder.

(** The call [find_packages()] of the script: all arguments defaulted,
    [where='.'] being the working directory. *)
Definition find_packages (cwd : list node) : list string :=
  PackageFinder.find cwd [] ["*"].

(** ** Exceptions and results *)

(** The exceptions an evaluation of the script can end with. *)
Inductive exn : Type :=
  | ModuleNotFoundError (module : string)
  | ImportError (module name : string)
  | ToolingError (msg : string).

Inductive result (A : Type) : Type :=
  | Ok (a : A)
  | Raise (e : exn).
Arguments Ok {A} a.
Arguments Raise {A} e.

#[global] Instance result_ret : MRet result := fun A a => Ok a.
#[global] Instance result_bind : MBind result := fun A B f m =>
  match m with Ok a => f a | Raise e => Raise e end.

(** ** The import system *)

(** The path-based import of a top-level module, as far as the claims
    below need it: source files [m.py] and regular packages
    [m/__init__.py].  Namespace portions, modules present only as bytecode
    or as extension modules, modules already imported, and the fallback of
    [from m import name] to a submodule [m.name] are outside this model. *)
Module Importer.

Fixpoint first_some {A B : Type} (f : A → option B) (l : list A) : option B :=
  match l with
  | [] => None
  | x :: l' => match f x with Some y => Some y | None => first_some f l' end
  end.

(** The names bound by [n] when [n] is a source file called [f]. *)
Definition source_binds (f : string) (n : node) : option (list string) :=
  match n with
  | File g binds => if String.eqb g f then Some binds else None
  | Dir _ _ => None
  end.

(** The names bound by [n] when [n] is the regular package [m]: a
    directory called [m] that holds an [__init__.py]. *)
Definition package_binds (m : string) (n : node) : option (list string) :=
  match n with
  | File _ _ => None
  | Dir d entries =>
      if String.eqb d m then first_some (source_binds "__init__.py") entries
      else None
  end.

(** What one entry of [sys.path] offers for the top-level module [m]: a
    regular package is preferred to a source file [m.py].  (A directory
    without [__init__.py] is at best a namespace portion and binds no
    name; it is not offered.) *)
Definition find_spec (entries : list node) (m : string)
    : option (list string) :=
  match first_some (package_binds m) entries with
  | Some binds => Some binds
  | None => first_some (source_binds (m +:+ ".py")) entries
  end.

(** [import m]: the first entry of the search path that offers [m] wins. *)
Definition import_module (path : list (list node)) (m : string)
    : result (list string) :=
  match first_some (fun entries => find_spec entries m) path with
  | Some binds => Ok binds
  | None => Raise (ModuleNotFoundError m)
  end.

Fixpoint check_names (m : string) (binds names : list string)
    : result unit :=
  match names with
  | [] => Ok ()
  | x :: names' =>
      if bool_decide (x ∈ binds) then check_names m binds names'
      else Raise (ImportError m x)
  end.

(** [from m import names] *)
Definition import_from (path : list (list node)) (m : string)
    (names : list string) : result unit :=
  binds ← import_module path m; check_names m binds names.

End Importer.

(** ** The evaluation context *)

(** What an evaluation of [setup.py] can observe: the working directory,
    the process environment, the module search path, and the behaviour of
    the packaging tooling behind [setuptools.setup], which either returns
    ([None]) or reports a failure of its own ([Some msg]). *)
Record Context : Type := {
  cwd : list node;
  environ : gmap string string;
  sys_path : list (list node);
  setup : gmap string pyval → option string;
}.

(** ** The descriptor *)

(** The keyword arguments of the [setup(...)] call, in source order. *)
Definition setup_kwargs (ctx : Context) : gmap string pyval :=
  dict [
    ("name", PStr "dyms_lexer");
    ("version", PStr "0.2.0");
    ("description", PStr "Pygments lexer for DYMS programming language");
    ("author", PStr "Dev-Dami");
    ("packages", PList (PStr <$> find_packages (cwd ctx)));
    ("install_requires", PList [
        PStr "Pygments>=2.0"
     ]);
    ("entry_points", PDict (dict [
        ("pygments.lexers", PList [
            PStr "dyms = dyms_lexer:DymsLexer"
         ])
     ]));
    ("classifiers", PList [
        PStr "Development Status :: 4 - Beta";
        PStr "Environment :: Plugins";
        PStr "Intended Audience :: Developers";
        PStr "License :: OSI Approved :: MIT License";
        PStr "Operating System :: OS Independent";
        PStr "Programming Language :: Python";
        PStr "Programming Language :: Python :: 3";
        PStr "Topic :: Software Development :: Libraries :: Python Modules";
        PStr "Topic :: Text Processing :: Filters"
     ])
  ].

(** The call itself: the tooling receives the keyword arguments; what the
    evaluation yields is the metadata it was given. *)
Definition call_setup (ctx : Context) (kwargs : gmap string pyval)
    : result (gmap string pyval) :=
  match setup ctx kwargs with
  | None => Ok kwargs
  | Some msg => Raise (ToolingError msg)
  end.

(** The whole script: the import statement, then the call. *)
Definition setup_py (ctx : Context) : result (gmap string pyval) :=
  _ ← Importer.import_from (sys_path ctx) "setuptools"
        ["setup"; "find_packages"];
  call_setup ctx (setup_kwargs ctx).

(** ** Entry points, as the plugin registry reads them *)

Record EntryPoint : Type := {
  ep_group : string;
  ep_name : string;
  ep_module : string;
  ep_attr : option string;
}.

(** One line [name = module:attr] of the group [group].  The line is split
    at its first [=] and both halves are stripped; the value must then be a
    dotted module path, optionally followed by a colon and a dotted
    attribute path, with white space allowed around the colon and at the
    end. *)
Definition parse_entry_point (group line : string) : option EntryPoint :=
  '(n, v) ← Str.split_once "=" (Str.chars line);
  let '(module, rest) := Str.span Str.is_word_or_dot (Str.strip v) in
  let ep attr :=
    {| ep_group := group; ep_name := Str.of_chars (Str.strip n);
       ep_module := Str.of_chars module; ep_attr := attr |} in
  match module, Str.lstrip rest with
  | [], _ => None
  | _ :: _, [] => Some (ep None)
  | _ :: _, c :: rest' =>
      if Str.eqc c ":" then
        let '(attr, tail) := Str.span Str.is_word_or_dot (Str.lstrip rest') in
        match attr, Str.lstrip tail with
        | _ :: _, [] => Some (ep (Some (Str.of_chars attr)))
        | _, _ => None
        end
      else None
  end.

Definition parse_group (item : string * pyval) : option (list EntryPoint) :=
  lines ← as_str_list item.2; mapM (parse_entry_point item.1) lines.

(** Every entry point a [setup()] call registers, over all groups of its
    [entry_points] argument; [None] when the argument is malformed. *)
Definition entry_points (kwargs : gmap string pyval)
    : option (list EntryPoint) :=
  match kwargs !! "entry_points" with
  | None => Some []
  | Some v =>
      d ← as_dict v;
      groups ← mapM parse_group (map_to_list d);
      Some (concat groups)
  end.

(** ** Requirements and version specifiers *)

Inductive cmp_op : Type := OpEq | OpNe | OpLe | OpGe | OpLt | OpGt.

(** The operators, two-character ones first so that [<=] is not read as
    [<]. *)
Definition operators : list (string * cmp_op) :=
  [("==", OpEq); ("!=", OpNe); ("<=", OpLe); (">=", OpGe);
   ("<", OpLt); (">", OpGt)].

(** A version is its release segments: [2.0] is [[2; 0]]. *)
Definition version : Type := list nat.

Record Requirement : Type := {
  req_name : string;
  req_spec : option (cmp_op * version);
}.

Definition parse_version (s : list ascii) : option version :=
  mapM Str.read_nat (Str.split "." s).

Fixpoint parse_operator (ops : list (string * cmp_op)) (s : list ascii)
    : option (cmp_op * list ascii) :=
  match ops with
  | [] => None
  | (text, op) :: ops' =>
      match Str.strip_prefix (Str.chars text) s with
      | Some rest => Some (op, rest)
      | None => parse_operator ops' s
      end
  end.

Definition is_name_char (c : ascii) : bool :=
  Str.is_alpha c || Str.is_digit c ||
  Str.eqc c "." || Str.eqc c "_" || Str.eqc c "-".

(** A requirement string: a distribution name, then at most one version
    clause [op version]. *)
Definition parse_requirement (s : string) : option Requirement :=
  let '(name, rest) := Str.span is_name_char (Str.strip (Str.chars s)) in
  match name, Str.lstrip rest with
  | [], _ => None
  | _ :: _, [] => Some {| req_name := Str.of_chars name; req_spec := None |}
  | _ :: _, (_ :: _) as clause =>
      '(op, v) ← parse_operator operators clause;
      ver ← parse_version (Str.lstrip v);
      Some {| req_name := Str.of_chars name; req_spec := Some (op, ver) |}
  end.

(** Release segments compare left to right, the shorter version padded with
    zeros: [2.0] and [2] are equal. *)
Fixpoint vcompare (a b : version) : comparison :=
  match a, b with
  | [], _ => if forallb (Nat.eqb 0) b then Eq else Lt
  | _ :: _, [] => if forallb (Nat.eqb 0) a then Eq else Gt
  | x :: a', y :: b' =>
      match x ?= y with
      | Eq => vcompare a' b'
      | c => c
      end
  end.

Definition holds (op : cmp_op) (c : comparison) : bool :=
  match op, c with
  | OpEq, Eq | OpNe, (Lt | Gt) => true
  | OpLe, (Lt | Eq) | OpGe, (Gt | Eq) => true
  | OpLt, Lt | OpGt, Gt => true
  | _, _ => false
  end.

(** The version [v] is admissible for the requirement [r]. *)
Definition satisfies (v : version) (r : Requirement) : bool :=
  match req_spec r with
  | None => true
  | Some (op, w) => holds op (vcompare v w)
  end.

(** The requirements a [setup()] call declares. *)
Definition install_requires (kwargs : gmap string pyval)
    : option (list Requirement) :=
  match kwargs !! "install_requires" with
  | None => Some []
  | Some v => specs ← as_str_list v; mapM parse_requirement specs
  end.

(** Loading an entry point: import its module, then look its attribute up
    among the names the module binds.  (Top-level modules and undotted
    attributes, as in this descriptor.) *)
Definition loads (path : list (list node)) (ep : EntryPoint) : bool :=
  match Importer.import_module path (ep_module ep) with
  | Ok binds =>
      match ep_attr ep with
      | Some attr => bool_decide (attr ∈ binds)
      | None => true
      end
  | Raise _ => false
  end.

(** ** The source tree of the repository *)

(** [setup.py] binds the two names it imports. *)
Definition project_dir : list node :=
  [File "setup.py" ["setup"; "find_packages"]].

Definition repository : list node :=
  [Dir "DYMS-Lang" project_dir].

Fixpoint dirs_below (n : node) : list (list node) :=
  match n with
  | File _ _ => []
  | Dir _ entries => entries :: flat_map dirs_below entries
  end.

(** Every directory of the tree rooted at [root], the root included. *)
Definition directories (root : list node) : list (list node) :=
  root :: flat_map dirs_below root.

(** ** Typed views of the descriptor's fields *)

Definition field_strs (k : string) (kwargs : gmap string pyval)
    : option (list string) :=
  kwargs !! k ≫= as_str_list.

(** Sample contexts: a bare checkout of the repository, and the same
    checkout once a package directory [dyms_lexer] sits next to
    [setup.py]. *)
Definition bare_checkout : Context :=
  {| cwd := project_dir; environ := ∅; sys_path := [];
     setup := λ _, None |}.

Definition lexer_package : node :=
  Dir "dyms_lexer" [File "__init__.py" ["DymsLexer"]].

Definition checkout_with_lexer : Context :=
  {| cwd := project_dir ++ [lexer_package];
     environ := {[ "HOME" := "/root" ]}; sys_path := [];
     setup := λ _, None |}.

(** ** Package directories, for stating what [find_packages] finds *)

(** Induction over a file-system tree, with the property available for
    every entry of a directory. *)
Section NodeInduction.
Variable P : node → Prop.
Hypothesis HFile : ∀ f binds, P (File f binds).
Hypothesis HDir : ∀ d entries, Forall P entries → P (Dir d entries).

Fixpoint node_ind_entries (n : node) : P n :=
  match n with
  | File f binds => HFile f binds
  | Dir d entries =>
      HDir d entries
        ((fix go (l : list node) : Forall P l :=
            match l with
            | [] => List.Forall_nil P
            | x :: l0 => List.Forall_cons P x l0 (node_ind_entries x) (go l0)
            end) entries)
  end.
End NodeInduction.

(** [a.b.c] for the names [a], [b], [c]. *)
Definition dotted (names : list string) : string := String.concat "." names.

(** Following [names] downwards from the directory [dir] leads through
    package directories only: each name is a sub-directory without a dot in
    its name that holds an [__init__.py]. *)
Fixpoint package_at (names : list string) (dir : list node) : bool :=
  match names with
  | [] => false
  | d :: rest =>
      existsb
        (λ n, match n with
              | File _ _ => false
              | Dir d' entries =>
                  String.eqb d' d && PackageFinder.valid n &&
                  match rest with
                  | [] => true
                  | _ :: _ => package_at rest entries
                  end
              end) dir
  end.

(** No two entries of a directory share a name, at every level of the
    tree. *)
Fixpoint unique_names (n : node) : bool :=
  match n with
  | File _ _ => true
  | Dir _ entries =>
      bool_decide (NoDup (node_name <$> entries)) && forallb unique_names entries
  end.

(** A checkout in which the lexer is a single module file next to
    [setup.py]. *)
Definition flat_checkout : Context :=
  {| cwd := project_dir ++ [File "dyms_lexer.py" ["DymsLexer"]];
     environ := ∅; sys_path := []; setup := λ _, None |}.

(** No two entries share a name, in the directory [dir] and in every
    directory below it. *)
Definition unique_names_in (dir : list node) : bool :=
  unique_names (Dir "." dir).

(** A pattern of [fnmatchcase] without the wildcards [*] and [?]. *)
Definition literal (pat : list ascii) : Prop :=
  Forall (λ c, c ≠ "*"%char ∧ c ≠ "?"%char) pat.

(** The filters of the call [find_packages()]. *)
#[local] Abbreviation default_exclude :=
  (PackageFinder.ALWAYS_EXCLUDE ++ []) (only parsing).
#[local] Abbreviation default_include := ["*"] (only parsing).

(** ** The same tree under another listing order *)

(** [reordered n n']: [n'] is [n] with the entries of some directories
    listed in another order.  Files keep their names and bindings,
    directories their names; the entries of a directory are reordered one
    by one ([Forall2]) and then permuted. *)
Inductive reordered : node → node → Prop :=
  | reordered_file (f : string) (binds : list string) :
      reordered (File f binds) (File f binds)
  | reordered_dir (d : string) (entries mid entries' : list node) :
      Forall2 reordered entries mid →
      mid ≡ₚ entries' →
      reordered (Dir d entries) (Dir d entries').

(** Induction over [reordered], with the property available for the
    entries of a directory. *)
Section ReorderedInduction.
Variable P : node → node → Prop.
Hypothesis HFile : ∀ f binds, P (File f binds) (File f binds).
Hypothesis HDir : ∀ d entries mid entries',
  Forall2 reordered entries mid → Forall2 P entries mid →
  mid ≡ₚ entries' → P (Dir d entries) (Dir d entries').

End ReorderedInduction.

(** Two directories hold the same tree, up to the order in which each
    directory lists its entries. *)
Definition same_tree (dir dir' : list node) : Prop :=
  reordered (Dir "." dir) (Dir "." dir').





(** * Properties *)

(** ** The models at work *)

Example fnmatchcase_pycache :
  Str.fnmatchcase "pkg.__pycache__" "*__pycache__" = true ∧
  Str.fnmatchcase "ez_setup.sub" "ez_setup" = false ∧
  Str.fnmatchcase "anything" "*" = true.
Proof. repeat split. Qed.

(** Packages come out parents first; a directory with a dot in its name or
    without [__init__.py] is skipped together with what is below it, and
    [ez_setup] is left out but still searched. *)
Example find_packages_walk :
  find_packages
    [ File "setup.py" [];
      Dir "dyms_lexer"
        [ File "__init__.py" ["DymsLexer"];
          Dir "styles" [File "__init__.py" []];
          Dir "data" [File "keywords.txt" []] ];
      Dir "ez_setup" [File "__init__.py" []; Dir "q" [File "__init__.py" []]];
      Dir "build.tmp" [File "__init__.py" []];
      Dir "docs" [Dir "ext" [File "__init__.py" []]];
      Dir "tests" [File "__init__.py" []] ]
  = ["dyms_lexer"; "tests"; "dyms_lexer.styles"; "ez_setup.q"].
Proof. vm_compute. reflexivity. Qed.

Example parse_entry_point_samples :
  parse_entry_point "g" "a=b.c : d.e  "
  = Some {| ep_group := "g"; ep_name := "a"; ep_module := "b.c";
            ep_attr := Some "d.e" |} ∧
  parse_entry_point "g" "name = module"
  = Some {| ep_group := "g"; ep_name := "name"; ep_module := "module";
            ep_attr := None |} ∧
  parse_entry_point "g" "no separator" = None ∧
  parse_entry_point "g" "a = b:c d" = None.
Proof. repeat split. Qed.

Example parse_requirement_samples :
  parse_requirement "  foo-bar <= 1.10.3 "
  = Some {| req_name := "foo-bar"; req_spec := Some (OpLe, [1; 10; 3]) |} ∧
  parse_requirement "foo"
  = Some {| req_name := "foo"; req_spec := None |} ∧
  parse_requirement "foo>=" = None ∧
  parse_requirement ">=2.0" = None.
Proof. repeat split. Qed.

Example vcompare_samples :
  vcompare [2; 0] [2] = Eq ∧ vcompare [2; 0; 1] [2] = Gt ∧
  vcompare [1; 9] [2; 0] = Lt ∧ vcompare [2; 18] [2; 0] = Gt.
Proof. repeat split. Qed.

Example import_from_samples :
  Importer.import_from [project_dir] "setuptools" ["setup"]
  = Raise (ModuleNotFoundError "setuptools") ∧
  Importer.import_from
    [[Dir "setuptools" [File "__init__.py" ["setup"]]]]
    "setuptools" ["setup"; "find_packages"]
  = Raise (ImportError "setuptools" "find_packages") ∧
  Importer.import_from
    [project_dir;
     [Dir "setuptools" [File "__init__.py" ["setup"; "find_packages"]]]]
    "setuptools" ["setup"; "find_packages"]
  = Ok ().
Proof. repeat split. Qed.

(** ** General facts about the models *)

Lemma first_some_Some {A B : Type} (f : A → option B) (l : list A) (y : B) :
  Importer.first_some f l = Some y → ∃ x, x ∈ l ∧ f x = Some y.
Proof.
  induction l as [|x l IH]; simpl; [discriminate|].
  destruct (f x) as [z|] eqn:Hfx.
  - intros [= <-]. exists x. split; [left|done].
  - intros H. destruct (IH H) as (x' & Hin & Hx'). exists x'.
    split; [by right|done].
Qed.

Lemma import_module_Ok path m binds :
  Importer.import_module path m = Ok binds →
  ∃ d, d ∈ path ∧ Importer.find_spec d m = Some binds.
Proof.
  unfold Importer.import_module.
  destruct (Importer.first_some _ path) as [b|] eqn:H; [|discriminate].
  intros [= <-]. by apply first_some_Some in H.
Qed.

(** A directory none of whose entries is a valid package yields nothing
    and is not searched further. *)
Lemma find_iter_no_package exclude include (where_ : list node) :
  Forall (λ n, PackageFinder.valid n = false) where_ →
  PackageFinder.find_iter exclude include where_ = [].
Proof.
  intros Hall. unfold PackageFinder.find_iter.
  induction Hall as [|n l Hn _ IH]; [done|].
  simpl. apply app_eq_nil in IH as [IH1 IH2].
  assert (PackageFinder.yields exclude include "" n = []) as ->.
  { unfold PackageFinder.yields. by rewrite Hn. }
  assert (PackageFinder.walk exclude include "" n = []) as ->.
  { destruct n as [|dir entries]; [done|].
    simpl. unfold PackageFinder.kept. by rewrite Hn. }
  simpl. by rewrite IH1, IH2.
Qed.

Lemma find_packages_no_package (dir : list node) :
  Forall (λ n, PackageFinder.valid n = false) dir → find_packages dir = [].
Proof. apply find_iter_no_package. Qed.


Lemma setup_kwargs_packages (ctx : Context) :
  setup_kwargs ctx !! "packages"
  = Some (PList (PStr <$> find_packages (cwd ctx))).
Proof. reflexivity. Qed.

Lemma setup_kwargs_keys (ctx : Context) :
  dom (setup_kwargs ctx)
  = {[ "name"; "version"; "description"; "author"; "packages";
       "install_requires"; "entry_points"; "classifiers" ]}.
Proof.
  unfold setup_kwargs, dict. cbn [foldl fst snd].
  rewrite !dom_insert_L, dom_empty_L. set_solver.
Qed.

(** ** The declared fields *)

(** C5: the descriptor declares a distributable unit whose [name] field is
    ['dyms_lexer'] and whose [version] field is ['0.2.0'], in every
    context. *)
Theorem name_and_version (ctx : Context) :
  setup_kwargs ctx !! "name" = Some (PStr "dyms_lexer") ∧
  setup_kwargs ctx !! "version" = Some (PStr "0.2.0").
Proof. split; reflexivity. Qed.

(** C2: [install_requires] is the one-element list [['Pygments>=2.0']]; read
    as requirements it is the single requirement on the distribution
    [Pygments] with the version clause [>= 2.0]. *)
Theorem one_runtime_dependency (ctx : Context) :
  setup_kwargs ctx !! "install_requires" = Some (PList [PStr "Pygments>=2.0"]) ∧
  install_requires (setup_kwargs ctx)
  = Some [ {| req_name := "Pygments"; req_spec := Some (OpGe, [2; 0]) |} ].
Proof. split; reflexivity. Qed.

(** C1: the [entry_points] argument has the single group ['pygments.lexers']
    holding the single line ['dyms = dyms_lexer:DymsLexer']; read by the
    plugin registry this is exactly one entry point, which maps the name
    [dyms] to the symbol [DymsLexer] of the module [dyms_lexer], and an
    entry point is registered if and only if it is that one. *)
Theorem one_entry_point (ctx : Context) :
  let dyms :=
    {| ep_group := "pygments.lexers"; ep_name := "dyms";
       ep_module := "dyms_lexer"; ep_attr := Some "DymsLexer" |} in
  setup_kwargs ctx !! "entry_points"
  = Some (PDict {[ "pygments.lexers" :=
                     PList [PStr "dyms = dyms_lexer:DymsLexer"] ]}) ∧
  entry_points (setup_kwargs ctx) = Some [dyms] ∧
  ∀ ep, (∃ eps, entry_points (setup_kwargs ctx) = Some eps ∧ ep ∈ eps)
        ↔ ep = dyms.
Proof.
  intros dyms.
  assert (entry_points (setup_kwargs ctx) = Some [dyms]) as Heps
    by reflexivity.
  split; [reflexivity|]. split; [exact Heps|].
  intros ep. split.
  - intros (eps & Heq & Hin). rewrite Heps in Heq.
    injection Heq as <-. by apply list_elem_of_singleton in Hin.
  - intros ->. exists [dyms]. split; [exact Heps|]. by left.
Qed.

(** C10: the [classifiers] field is, in every context, the same list of
    nine tags in the same order; among them are the development status
    [4 - Beta], the OSI-approved MIT license, Python 3, and OS
    independence. *)
Theorem classifiers_fixed (ctx : Context) :
  let tags :=
    [ "Development Status :: 4 - Beta";
      "Environment :: Plugins";
      "Intended Audience :: Developers";
      "License :: OSI Approved :: MIT License";
      "Operating System :: OS Independent";
      "Programming Language :: Python";
      "Programming Language :: Python :: 3";
      "Topic :: Software Development :: Libraries :: Python Modules";
      "Topic :: Text Processing :: Filters" ] in
  field_strs "classifiers" (setup_kwargs ctx) = Some tags ∧
  length tags = 9 ∧
  "Development Status :: 4 - Beta" ∈ tags ∧
  "License :: OSI Approved :: MIT License" ∈ tags ∧
  "Programming Language :: Python :: 3" ∈ tags ∧
  "Operating System :: OS Independent" ∈ tags ∧
  ∀ ctx', field_strs "classifiers" (setup_kwargs ctx')
          = field_strs "classifiers" (setup_kwargs ctx).
Proof.
  intros tags. split; [reflexivity|]. split; [reflexivity|].
  repeat split; try (apply list_elem_of_In; simpl; tauto).
Qed.

(** C4 (as amended): the keyword arguments of the [setup()] call are exactly
    the eight fields [name], [version], [description], [author], [packages],
    [install_requires], [entry_points] and [classifiers]. *)
Theorem metadata_fields (ctx : Context) :
  dom (setup_kwargs ctx)
  = {[ "name"; "version"; "description"; "author"; "packages";
       "install_requires"; "entry_points"; "classifiers" ]}.
Proof. apply setup_kwargs_keys. Qed.

(** C4 (as stated) fails: in a bare checkout the descriptor also has the
    field [packages], which is none of the seven fields the claim lists. *)
Lemma metadata_fields_not_only_seven :
  dom (setup_kwargs bare_checkout)
  ≠ {[ "name"; "version"; "author"; "description";
       "install_requires"; "entry_points"; "classifiers" ]}.
Proof.
  intros Heq.
  assert ("packages" ∈ dom (setup_kwargs bare_checkout)) as Hin.
  { rewrite setup_kwargs_keys. set_solver. }
  rewrite Heq in Hin. set_solver.
Qed.

(** ** Dependence on the context *)


Lemma reordered_refl (n : node) : reordered n n.
Proof.
  induction n as [f b|d es IH] using node_ind_entries; [constructor|].
  apply (reordered_dir d es es es); [|done].
  induction IH; constructor; auto.
Qed.

(** Listing the entries of the top directory in another order is a
    reordering. *)
Lemma Permutation_same_tree (dir dir' : list node) :
  dir ≡ₚ dir' → same_tree dir dir'.
Proof.
  intros Hperm. apply (reordered_dir "." dir dir dir'); [|done].
  clear Hperm. induction dir as [|x l IH]; constructor;
    [apply reordered_refl | exact IH].
Qed.








(** C9: no directory of the repository's source tree holds an
    [__init__.py], and [find_packages()] run in any of them (the directory
    of [setup.py] in particular) returns the empty list; the descriptor
    evaluated there has [packages = []] and names no module in any other
    way ([py_modules] and [ext_modules] are not passed). *)
Theorem no_packages_in_source_tree (ctx : Context) :
  cwd ctx ∈ directories repository →
  project_dir ∈ directories repository ∧
  (∀ d, d ∈ directories repository → isfile d "__init__.py" = false) ∧
  find_packages (cwd ctx) = [] ∧
  setup_kwargs ctx !! "packages" = Some (PList []) ∧
  setup_kwargs ctx !! "py_modules" = None ∧
  setup_kwargs ctx !! "ext_modules" = None.
Proof.
  intros Hcwd.
  assert (∀ d, d ∈ directories repository → find_packages d = []) as Hnil.
  { intros d Hd. apply list_elem_of_In in Hd. simpl in Hd.
    destruct Hd as [<-|[<-|[]]]; reflexivity. }
  split; [apply list_elem_of_In; simpl; tauto|]. split.
  - intros d Hd. apply list_elem_of_In in Hd. simpl in Hd.
    destruct Hd as [<-|[<-|[]]]; reflexivity.
  - split; [by apply Hnil|]. split; [|split; reflexivity].
    rewrite setup_kwargs_packages. by rewrite (Hnil _ Hcwd).
Qed.

Lemma no_packages_in_source_tree_witness :
  cwd bare_checkout ∈ directories repository ∧
  find_packages (cwd bare_checkout) = [] ∧
  setup_kwargs bare_checkout !! "packages" = Some (PList []).
Proof.
  assert (cwd bare_checkout ∈ directories repository) as Hin.
  { apply list_elem_of_In. simpl. right. left. reflexivity. }
  split; [exact Hin|].
  destruct (no_packages_in_source_tree bare_checkout Hin)
    as (_ & _ & Hfind & Hpk & _).
  split; [exact Hfind | exact Hpk].
Defined.

(** ** The dependency constraint *)

(** C8: the declared requirement is satisfiable.  The descriptor declares
    one requirement; the versions admissible for it are exactly those not
    below [2.0], and [2.0] itself is one of them. *)
Theorem dependency_satisfiable (ctx : Context) :
  ∃ r : Requirement,
    install_requires (setup_kwargs ctx) = Some [r] ∧
    (∃ v : version, satisfies v r = true) ∧
    ∀ v : version, satisfies v r = true ↔ vcompare v [2; 0] ≠ Lt.
Proof.
  exists {| req_name := "Pygments"; req_spec := Some (OpGe, [2; 0]) |}.
  split; [reflexivity|]. split.
  - exists [2; 0]. reflexivity.
  - intros v. unfold satisfies. cbn [req_spec].
    destruct (vcompare v [2; 0]); cbn; split; congruence.
Qed.

(** ** Resolving the entry point *)

(** C6: no directory of the repository's source tree offers a module
    [dyms_lexer], so the registered entry point does not load from the given
    files alone; whenever it loads from a search path, some directory of
    that path outside the given files offers the module [dyms_lexer] and
    binds [DymsLexer] in it. *)
Theorem entry_point_needs_outside_lexer
    (ctx : Context) (eps : list EntryPoint) (ep : EntryPoint) :
  entry_points (setup_kwargs ctx) = Some eps →
  ep ∈ eps →
  (∀ d, d ∈ directories repository →
        Importer.find_spec d (ep_module ep) = None) ∧
  (∀ path, Forall (λ d, d ∈ directories repository) path →
           loads path ep = false) ∧
  (∀ path, loads path ep = true →
     ∃ d binds, d ∈ path ∧ (d ∉ directories repository) ∧
       Importer.find_spec d "dyms_lexer" = Some binds ∧ "DymsLexer" ∈ binds).
Proof.
  intros Heps Hep.
  assert (ep = {| ep_group := "pygments.lexers"; ep_name := "dyms";
                  ep_module := "dyms_lexer"; ep_attr := Some "DymsLexer" |})
    as ->.
  { change (entry_points (setup_kwargs ctx)) with (Some [
      {| ep_group := "pygments.lexers"; ep_name := "dyms";
         ep_module := "dyms_lexer"; ep_attr := Some "DymsLexer" |}]) in Heps.
    injection Heps as <-. by apply list_elem_of_singleton in Hep. }
  cbn [ep_module].
  assert (∀ d, d ∈ directories repository →
               Importer.find_spec d "dyms_lexer" = None) as Hnone.
  { intros d Hd. apply list_elem_of_In in Hd. simpl in Hd.
    destruct Hd as [<-|[<-|[]]]; reflexivity. }
  assert (∀ path, loads path
            {| ep_group := "pygments.lexers"; ep_name := "dyms";
               ep_module := "dyms_lexer"; ep_attr := Some "DymsLexer" |} = true →
     ∃ d binds, d ∈ path ∧ (d ∉ directories repository) ∧
       Importer.find_spec d "dyms_lexer" = Some binds ∧ "DymsLexer" ∈ binds)
    as Houtside.
  { intros path. unfold loads. cbn [ep_module ep_attr].
    destruct (Importer.import_module path "dyms_lexer") as [binds|e] eqn:Himp;
      [|discriminate].
    intros Hattr. apply bool_decide_eq_true in Hattr.
    apply import_module_Ok in Himp as (d & Hd & Hspec).
    exists d, binds.
    split; [exact Hd|]. split; [|split; [exact Hspec|exact Hattr]].
    intros Hin. rewrite (Hnone d Hin) in Hspec. discriminate. }
  split; [exact Hnone|]. split; [|exact Houtside].
  intros path Hpath.
  destruct (loads path _) eqn:Hl; [|done].
  apply Houtside in Hl as (d & binds & Hd & Hout & _).
  rewrite Forall_forall in Hpath. destruct (Hout (Hpath d Hd)).
Qed.

Lemma entry_point_needs_outside_lexer_witness :
  let dyms :=
    {| ep_group := "pygments.lexers"; ep_name := "dyms";
       ep_module := "dyms_lexer"; ep_attr := Some "DymsLexer" |} in
  entry_points (setup_kwargs bare_checkout) = Some [dyms] ∧
  dyms ∈ [dyms] ∧
  loads [project_dir; [lexer_package]] dyms = true ∧
  loads [project_dir; repository] dyms = false ∧
  ∃ d binds, d ∈ [project_dir; [lexer_package]] ∧
    (d ∉ directories repository) ∧
    Importer.find_spec d "dyms_lexer" = Some binds ∧ "DymsLexer" ∈ binds.
Proof.
  intros dyms.
  assert (entry_points (setup_kwargs bare_checkout) = Some [dyms]) as Heps
    by reflexivity.
  assert (dyms ∈ [dyms]) as Hin by (apply list_elem_of_In; simpl; tauto).
  assert (loads [project_dir; [lexer_package]] dyms = true) as Hloads
    by reflexivity.
  destruct (entry_point_needs_outside_lexer bare_checkout [dyms] dyms Heps Hin)
    as (_ & Hgiven & Houtside).
  split; [exact Heps|]. split; [exact Hin|]. split; [exact Hloads|]. split.
  - apply Hgiven. repeat constructor.
  - exact (Houtside _ Hloads).
Defined.

(** ** Failures *)

(** C7: the script has no failure of its own.  In every context its
    evaluation either yields the metadata it passes to [setup()], or ends
    with exactly the exception the import of setuptools raised, or ends with
    exactly the failure the tooling behind [setup()] reported for that
    metadata. *)
Theorem failures_are_external (ctx : Context) :
  let import_ :=
    Importer.import_from (sys_path ctx) "setuptools"
      ["setup"; "find_packages"] in
  (import_ = Ok () ∧ setup ctx (setup_kwargs ctx) = None ∧
   setup_py ctx = Ok (setup_kwargs ctx)) ∨
  (∃ e, import_ = Raise e ∧ setup_py ctx = Raise e ∧
        (e = ModuleNotFoundError "setuptools" ∨
         ∃ name, e = ImportError "setuptools" name)) ∨
  (∃ msg, import_ = Ok () ∧ setup ctx (setup_kwargs ctx) = Some msg ∧
          setup_py ctx = Raise (ToolingError msg)).
Proof.
  intros import_. unfold setup_py. fold import_.
  destruct import_ as [[]|e] eqn:Himp.
  - unfold call_setup. simpl.
    destruct (setup ctx (setup_kwargs ctx)) as [msg|] eqn:Hsetup.
    + right. right. by exists msg.
    + left. done.
  - right. left. exists e. split; [done|]. split; [done|].
    subst import_. unfold Importer.import_from in Himp.
    destruct (Importer.import_module _ _) as [binds|e'] eqn:Hmod.
    + simpl in Himp. right.
      unfold Importer.check_names in Himp.
      repeat case_bool_decide; try discriminate; injection Himp as <-; eauto.
    + simpl in Himp. injection Himp as <-. left.
      unfold Importer.import_module in Hmod.
      destruct (Importer.first_some _ _); [discriminate|].
      by injection Hmod as <-.
Qed.

(** ** What the [packages] field lists *)

Lemma append_assoc (s1 s2 s3 : string) :
  s1 +:+ (s2 +:+ s3) = (s1 +:+ s2) +:+ s3.
Proof.
  induction s1 as [|a s1 IH]; [done|].
  change (String a (s1 +:+ (s2 +:+ s3)) = String a ((s1 +:+ s2) +:+ s3)).
  by rewrite IH.
Qed.

Lemma chars_append (s1 s2 : string) :
  Str.chars (s1 +:+ s2) = Str.chars s1 ++ Str.chars s2.
Proof.
  induction s1 as [|a s1 IH]; [done|].
  change (a :: Str.chars (s1 +:+ s2) = a :: (Str.chars s1 ++ Str.chars s2)).
  by rewrite IH.
Qed.

Lemma chars_inj (s1 s2 : string) : Str.chars s1 = Str.chars s2 → s1 = s2.
Proof.
  intros H. rewrite <- (String.string_of_list_ascii_of_string s1),
    <- (String.string_of_list_ascii_of_string s2).
  unfold Str.chars in H. by rewrite H.
Qed.

Lemma eqc_eq (a b : ascii) : Str.eqc a b = true ↔ a = b.
Proof. apply Ascii.eqb_eq. Qed.

(** The pattern [*] matches every name. *)
Lemma glob_star_all (s : list ascii) : Str.glob ["*"%char] s = true.
Proof. induction s as [|c s IH]; [done|]. simpl in *. exact IH. Qed.

(** A pattern without [*] and [?] matches itself only. *)
Lemma glob_literal (pat s : list ascii) :
  literal pat → Str.glob pat s = true ↔ s = pat.
Proof.
  intros Hlit. revert s. induction Hlit as [|p pat [Hs Hq] _ IH]; intros s.
  - destruct s; simpl; split; congruence.
  - simpl. destruct (Str.eqc p "*") eqn:E1; [apply eqc_eq in E1; done|].
    destruct s as [|c s]; [split; congruence|].
    destruct (Str.eqc p "?") eqn:E2; [apply eqc_eq in E2; done|].
    simpl. destruct (Str.eqc p c) eqn:E3; simpl.
    + apply eqc_eq in E3 as ->. rewrite IH. split; congruence.
    + split; [congruence|]. intros [= -> _].
      assert (Str.eqc p p = true) by by apply eqc_eq. congruence.
Qed.

(** [*] followed by a literal matches exactly the names that end with the
    literal. *)
Lemma glob_star_literal (pat s : list ascii) :
  literal pat → Str.glob ("*"%char :: pat) s = true ↔ ∃ pre, s = pre ++ pat.
Proof.
  intros Hlit. simpl.
  induction s as [|c s IH].
  - rewrite orb_false_r, (glob_literal _ _ Hlit). split.
    + intros <-. by exists [].
    + intros (pre & H). symmetry in H. by apply app_eq_nil in H as [_ ->].
  - rewrite orb_true_iff, (glob_literal _ _ Hlit), IH. split.
    + intros [<-|(pre & ->)]; [by exists []|by exists (c :: pre)].
    + intros ([|c' pre] & H); [left; done|right].
      simpl in H. injection H as -> ->. by exists pre.
Qed.

(** The names the default filters leave out: [ez_setup], and every name
    that ends with [__pycache__]. *)
Lemma default_exclude_spec (p : string) :
  PackageFinder.matches (PackageFinder.ALWAYS_EXCLUDE ++ []) p = true
  ↔ p = "ez_setup" ∨ ∃ pre, p = pre +:+ "__pycache__".
Proof.
  unfold PackageFinder.matches, PackageFinder.ALWAYS_EXCLUDE. simpl.
  rewrite orb_false_r, orb_true_iff. unfold Str.fnmatchcase.
  assert (literal (Str.chars "ez_setup")) as L1.
  { repeat constructor; discriminate. }
  assert (literal (Str.chars "__pycache__")) as L2.
  { repeat constructor; discriminate. }
  rewrite (glob_literal _ _ L1).
  change (Str.chars "*__pycache__") with ("*"%char :: Str.chars "__pycache__").
  rewrite (glob_star_literal _ _ L2).
  split.
  - intros [H|(pre & H)]; [left; by apply chars_inj|right].
    exists (Str.of_chars pre). apply chars_inj.
    rewrite chars_append, H. unfold Str.chars at 2, Str.of_chars.
    by rewrite String.list_ascii_of_string_of_list_ascii.
  - intros [->|(pre & ->)]; [by left|right].
    exists (Str.chars pre). apply chars_append.
Qed.

(** With the default filters no directory is pruned early. *)
Lemma default_never_pruned (p : string) :
  PackageFinder.pruned (PackageFinder.ALWAYS_EXCLUDE ++ []) p = false.
Proof.
  assert (∀ q s : string, last (Str.chars s) ≠ Some "*"%char →
            q +:+ "*" ≠ s) as Hlast.
  { intros q s Hs <-. apply Hs.
    rewrite chars_append. apply last_snoc. }
  assert (∀ q s : string, last (Str.chars s) ≠ Some "*"%char →
            q +:+ ".*" ≠ s) as Hlast2.
  { intros q s Hs. change (q +:+ ".*") with (q +:+ ("." +:+ "*")).
    rewrite append_assoc. by apply Hlast. }
  unfold PackageFinder.pruned, PackageFinder.ALWAYS_EXCLUDE. simpl.
  apply orb_false_iff. split; apply bool_decide_eq_false; intros Hin;
    apply list_elem_of_In in Hin; simpl in Hin;
    destruct Hin as [H|[H|[]]]; symmetry in H; revert H;
    (by apply Hlast) || (by apply Hlast2).
Qed.


Lemma yields_default (prefix : string) (n : node) (p : string) :
  In p (PackageFinder.yields default_exclude default_include prefix n)
  ↔ PackageFinder.valid n = true ∧ p = prefix +:+ node_name n ∧
    PackageFinder.matches default_exclude p = false.
Proof.
  unfold PackageFinder.yields.
  assert (PackageFinder.matches default_include (prefix +:+ node_name n) = true) as ->.
  { unfold PackageFinder.matches, Str.fnmatchcase. simpl.
    rewrite orb_false_r. apply glob_star_all. }
  rewrite andb_true_r.
  destruct (PackageFinder.valid n); cbn [andb];
    [|split; [intros [] | intros (? & _); discriminate]].
  destruct (PackageFinder.matches default_exclude (prefix +:+ node_name n)) eqn:E;
    cbn [negb].
  - split; [intros []|]. intros (_ & -> & H). congruence.
  - split.
    + intros [<-|[]]. done.
    + intros (_ & -> & _). by left.
Qed.

Lemma walk_default (prefix d : string) (entries : list node) :
  PackageFinder.walk default_exclude default_include prefix (Dir d entries)
  = if PackageFinder.valid (Dir d entries) then
      flat_map (PackageFinder.yields default_exclude default_include (prefix +:+ d +:+ "."))
        entries ++
      flat_map (PackageFinder.walk default_exclude default_include (prefix +:+ d +:+ "."))
        entries
    else [].
Proof.
  cbn [PackageFinder.walk]. unfold PackageFinder.kept.
  rewrite default_never_pruned. by rewrite andb_true_r.
Qed.

Lemma dotted_cons (d : string) (names : list string) :
  names ≠ [] → dotted (d :: names) = d +:+ "." +:+ dotted names.
Proof. by destruct names. Qed.

Lemma package_at_cons (d : string) (rest : list string) (dir : list node) :
  package_at (d :: rest) dir = true
  ↔ ∃ entries, In (Dir d entries) dir ∧
      PackageFinder.valid (Dir d entries) = true ∧
      (rest = [] ∨ package_at rest entries = true).
Proof.
  cbn [package_at]. rewrite existsb_exists. split.
  - intros ([f b|d' entries] & Hin & H); [done|].
    apply andb_true_iff in H as [H Hrest].
    apply andb_true_iff in H as [Hd Hvalid].
    apply String.eqb_eq in Hd as ->.
    exists entries. split; [done|]. split; [done|].
    destruct rest; [by left|by right].
  - intros (entries & Hin & Hvalid & Hrest).
    exists (Dir d entries). split; [done|].
    rewrite String.eqb_refl, Hvalid. simpl.
    destruct rest as [|r rest]; [done|].
    by destruct Hrest.
Qed.

(** What the walk finds in a directory: the dotted paths of the chains of
    package directories below it that the exclude filter lets through. *)
Lemma find_iter_default (dir : list node) (prefix p : string) :
  In p (flat_map (PackageFinder.yields default_exclude default_include prefix) dir ++
        flat_map (PackageFinder.walk default_exclude default_include prefix) dir)
  ↔ ∃ names, package_at names dir = true ∧ p = prefix +:+ dotted names ∧
             PackageFinder.matches default_exclude p = false.
Proof.
  cut (∀ n d entries, n = Dir d entries → ∀ prefix p,
    In p (flat_map (PackageFinder.yields default_exclude default_include prefix) entries ++
          flat_map (PackageFinder.walk default_exclude default_include prefix) entries)
    ↔ ∃ names, package_at names entries = true ∧
               p = prefix +:+ dotted names ∧
               PackageFinder.matches default_exclude p = false).
  { intros H. exact (H (Dir "" dir) "" dir eq_refl prefix p). }
  clear dir prefix p.
  induction n as [f b|d0 es IH] using node_ind_entries; [done|].
  intros d entries [= -> ->] prefix p.
  rewrite Forall_forall in IH.
  rewrite in_app_iff, !in_flat_map. split.
  - intros [(n & Hn & Hp)|(n & Hn & Hp)].
    + apply yields_default in Hp as (Hvalid & -> & Hex).
      destruct n as [f b|d1 es1]; [done|].
      exists [d1]. split; [|done].
      apply package_at_cons. exists es1. auto.
    + destruct n as [f b|d1 es1]; [done|].
      rewrite walk_default in Hp.
      destruct (PackageFinder.valid (Dir d1 es1)) eqn:Hvalid; [|done].
      pose proof (proj2 (list_elem_of_In _ _) Hn) as Hn'.
      apply (IH (Dir d1 es1) Hn' d1 es1 eq_refl) in Hp
        as (names & Hat & -> & Hex).
      assert (names ≠ []) as Hne by (intros ->; done).
      exists (d1 :: names). split; [|split; [|done]].
      * apply package_at_cons. exists es1. auto.
      * rewrite (dotted_cons _ _ Hne). by rewrite !append_assoc.
  - intros ([|d1 rest] & Hat & -> & Hex); [done|].
    apply package_at_cons in Hat as (es1 & Hin & Hvalid & Hrest).
    destruct rest as [|r rest].
    + left. exists (Dir d1 es1). split; [done|].
      apply yields_default. done.
    + destruct Hrest as [|Hrest]; [done|].
      right. exists (Dir d1 es1). split; [done|].
      rewrite walk_default, Hvalid.
      pose proof (proj2 (list_elem_of_In _ _) Hin) as Hin'.
      apply (IH (Dir d1 es1) Hin' d1 es1 eq_refl).
      exists (r :: rest). split; [done|]. split; [|done].
      assert (r :: rest ≠ []) as Hne by done.
      rewrite (dotted_cons d1 _ Hne). by rewrite !append_assoc.
Qed.

Lemma mapM_as_str (l : list string) : mapM as_str (PStr <$> l) = Some l.
Proof. induction l as [|s l IH]; [done|]. cbn. by rewrite IH. Qed.

Lemma packages_field (ctx : Context) :
  field_strs "packages" (setup_kwargs ctx) = Some (find_packages (cwd ctx)).
Proof.
  unfold field_strs. rewrite setup_kwargs_packages. cbn.
  apply mapM_as_str.
Qed.

Lemma find_packages_default (dir : list node) (p : string) :
  p ∈ find_packages dir
  ↔ ∃ names, package_at names dir = true ∧ p = dotted names ∧
             PackageFinder.matches default_exclude p = false.
Proof.
  rewrite list_elem_of_In.
  unfold find_packages, PackageFinder.find, PackageFinder.find_iter.
  apply (find_iter_default dir "" p).
Qed.

(** X1: the [packages] field lists exactly the dotted paths [a.b.c] of the
    chains of package directories below the working directory (every
    directory of the chain has no dot in its name and holds an
    [__init__.py]), except the name [ez_setup] and the names that end with
    [__pycache__]. *)
Theorem packages_field_spec (ctx : Context) :
  ∃ pkgs : list string,
    field_strs "packages" (setup_kwargs ctx) = Some pkgs ∧
    ∀ p, p ∈ pkgs
         ↔ ∃ names, package_at names (cwd ctx) = true ∧ p = dotted names ∧
                    p ≠ "ez_setup" ∧ ¬ ∃ pre, p = pre +:+ "__pycache__".
Proof.
  exists (find_packages (cwd ctx)). split; [apply packages_field|].
  intros p. rewrite find_packages_default.
  assert (PackageFinder.matches default_exclude p = false
          ↔ p ≠ "ez_setup" ∧ ¬ ∃ pre, p = pre +:+ "__pycache__") as Hex.
  { rewrite <- not_true_iff_false, default_exclude_spec. tauto. }
  split; intros (names & Hat & Hp & H); exists names;
    (split; [exact Hat|]); (split; [exact Hp|]); by apply Hex.
Qed.



(** X3: when no directory directly inside the working directory holds an
    [__init__.py], the descriptor bundles nothing: [packages] is empty and
    no [py_modules] is passed.  A lexer kept as a single file
    [dyms_lexer.py] next to [setup.py] is therefore left out, although the
    entry point loads from that directory. *)
Theorem flat_layout_bundles_nothing (ctx : Context) :
  (∀ d entries, Dir d entries ∈ cwd ctx →
                isfile entries "__init__.py" = false) →
  field_strs "packages" (setup_kwargs ctx) = Some [] ∧
  setup_kwargs ctx !! "py_modules" = None.
Proof.
  intros Hflat. split; [|reflexivity].
  rewrite packages_field. f_equal.
  apply find_packages_no_package, Forall_forall.
  intros [f b|d entries] Hin; [done|].
  unfold PackageFinder.valid, PackageFinder.looks_like_package.
  rewrite (Hflat d entries Hin). apply andb_false_r.
Qed.

Lemma flat_layout_bundles_nothing_witness :
  (∀ d entries, Dir d entries ∈ cwd flat_checkout →
                isfile entries "__init__.py" = false) ∧
  loads [cwd flat_checkout]
    {| ep_group := "pygments.lexers"; ep_name := "dyms";
       ep_module := "dyms_lexer"; ep_attr := Some "DymsLexer" |} = true ∧
  field_strs "packages" (setup_kwargs flat_checkout) = Some [] ∧
  setup_kwargs flat_checkout !! "py_modules" = None.
Proof.
  assert (∀ d entries, Dir d entries ∈ cwd flat_checkout →
                       isfile entries "__init__.py" = false) as Hflat.
  { intros d entries Hin. apply list_elem_of_In in Hin. simpl in Hin.
    destruct Hin as [H|[H|[]]]; discriminate. }
  split; [exact Hflat|]. split; [reflexivity|].
  exact (flat_layout_bundles_nothing flat_checkout Hflat).
Defined.

(** ** No package is listed twice *)

Lemma NoDup_flat_map {A B K : Type} (f : A → list B) (g : A → K)
    (l : list A) :
  NoDup (g <$> l) →
  (∀ x, x ∈ l → NoDup (f x)) →
  (∀ x x' y, x ∈ l → x' ∈ l → In y (f x) → In y (f x') → g x = g x') →
  NoDup (flat_map f l).
Proof.
  induction l as [|a l IH]; intros Hg Hf Hkey; [constructor|].
  cbn in Hg. apply NoDup_cons in Hg as [Ha Hg].
  cbn. apply NoDup_app. split; [apply Hf; left|]. split.
  - intros y Hy Hy'. apply list_elem_of_In, in_flat_map in Hy'.
    destruct Hy' as (x' & Hx' & Hyx').
    apply list_elem_of_In in Hx'. apply list_elem_of_In in Hy.
    apply Ha. rewrite (Hkey a x' y); [|left|by right|done|done].
    by apply list_elem_of_fmap_2.
  - apply IH; [done| |].
    + intros x Hx. apply Hf. by right.
    + intros x x' y Hx Hx'. apply Hkey; by right.
Qed.

Lemma contains_dot_append (a b : string) :
  Str.contains "." (a +:+ "." +:+ b) = true.
Proof.
  unfold Str.contains. rewrite chars_append, existsb_app.
  apply orb_true_iff. right.
  change (Str.chars ("." +:+ b)) with ("."%char :: Str.chars b).
  reflexivity.
Qed.

Lemma dot_free_head (d d' r r' : string) :
  Str.contains "." d = false → Str.contains "." d' = false →
  d +:+ "." +:+ r = d' +:+ "." +:+ r' → d = d'.
Proof.
  revert d'. induction d as [|a d IH]; intros [|a' d'] Hd Hd' Heq.
  - done.
  - injection Heq as <- _. discriminate.
  - injection Heq as -> _. discriminate.
  - injection Heq as <- Heq.
    unfold Str.contains in Hd, Hd'. cbn in Hd, Hd'.
    apply orb_false_iff in Hd as [_ Hd].
    apply orb_false_iff in Hd' as [_ Hd'].
    f_equal. by apply IH.
Qed.

Lemma walk_default_inv (prefix d p : string) (entries : list node) :
  In p (PackageFinder.walk default_exclude default_include prefix
          (Dir d entries)) →
  Str.contains "." d = false ∧
  ∃ names, p = prefix +:+ d +:+ "." +:+ dotted names.
Proof.
  rewrite walk_default.
  destruct (PackageFinder.valid (Dir d entries)) eqn:Hvalid; [|done].
  intros Hp. apply find_iter_default in Hp as (names & _ & -> & _).
  split.
  - cbn in Hvalid. apply andb_true_iff in Hvalid as [Hd _].
    by apply negb_true_iff in Hd.
  - exists names. by rewrite !append_assoc.
Qed.

Lemma find_iter_NoDup (dir : list node) (prefix : string) :
  unique_names_in dir = true →
  NoDup (flat_map (PackageFinder.yields default_exclude default_include prefix)
           dir ++
         flat_map (PackageFinder.walk default_exclude default_include prefix)
           dir).
Proof.
  unfold unique_names_in. generalize ".". intros d0. revert prefix.
  cut (∀ n d entries, n = Dir d entries → unique_names n = true → ∀ prefix,
         NoDup (flat_map (PackageFinder.yields default_exclude default_include
                            prefix) entries ++
                flat_map (PackageFinder.walk default_exclude default_include
                            prefix) entries)).
  { intros H prefix Hu. exact (H (Dir d0 dir) d0 dir eq_refl Hu prefix). }
  clear dir d0.
  induction n as [f b|d1 es IH] using node_ind_entries; [done|].
  intros d entries [= -> ->] Hu prefix.
  rewrite Forall_forall in IH.
  cbn [unique_names] in Hu. apply andb_true_iff in Hu as [Hnames Hsub].
  apply bool_decide_eq_true in Hnames.
  rewrite forallb_forall in Hsub.
  apply NoDup_app. split; [|split].
  - apply (NoDup_flat_map _ node_name); [done| |].
    + intros x _. unfold PackageFinder.yields.
      destruct (_ && _); [apply NoDup_singleton|constructor].
    + intros x x' y _ _ Hy Hy'.
      apply yields_default in Hy as (_ & -> & _).
      apply yields_default in Hy' as (_ & Heq & _).
      by apply (inj (String.app prefix)) in Heq.
  - intros y Hy Hy'.
    apply list_elem_of_In, in_flat_map in Hy as (x & _ & Hy).
    apply list_elem_of_In, in_flat_map in Hy' as (x' & _ & Hy').
    apply yields_default in Hy as (Hvalid & -> & _).
    destruct x as [f b|dx esx]; [done|].
    destruct x' as [f b|dx' esx']; [done|].
    apply walk_default_inv in Hy' as (_ & names & Heq).
    apply (inj (String.app prefix)) in Heq. cbn [node_name] in Heq.
    cbn in Hvalid. apply andb_true_iff in Hvalid as [Hdot _].
    apply negb_true_iff in Hdot.
    rewrite Heq, contains_dot_append in Hdot. discriminate.
  - apply (NoDup_flat_map _ node_name); [done| |].
    + intros [f b|dx esx] Hx; [constructor|].
      rewrite walk_default. destruct (PackageFinder.valid _); [|constructor].
      apply (IH (Dir dx esx) Hx dx esx eq_refl).
      apply Hsub. by apply list_elem_of_In.
    + intros [f b|dx esx] [f' b'|dx' esx'] y _ _ Hy Hy'; try done.
      apply walk_default_inv in Hy as (Hdot & names & ->).
      apply walk_default_inv in Hy' as (Hdot' & names' & Heq).
      apply (inj (String.app prefix)) in Heq.
      cbn [node_name]. by apply (dot_free_head _ _ _ _ Hdot Hdot' Heq).
Qed.

(** X4: when no two entries of a directory share a name, in the working
    directory and below it, the [packages] field names no package twice. *)
Theorem packages_no_duplicates (ctx : Context) :
  unique_names_in (cwd ctx) = true →
  ∃ pkgs, field_strs "packages" (setup_kwargs ctx) = Some pkgs ∧ NoDup pkgs.
Proof.
  intros Hu. exists (find_packages (cwd ctx)).
  split; [apply packages_field|].
  apply (find_iter_NoDup (cwd ctx) "" Hu).
Qed.

Lemma packages_no_duplicates_witness :
  unique_names_in (cwd checkout_with_lexer) = true ∧
  ∃ pkgs, field_strs "packages" (setup_kwargs checkout_with_lexer) = Some pkgs ∧
          NoDup pkgs.
Proof.
  assert (unique_names_in (cwd checkout_with_lexer) = true) as Hu
    by (vm_compute; reflexivity).
  split; [exact Hu|].
  exact (packages_no_duplicates checkout_with_lexer Hu).
Defined.
